(** * CustomClassesInPython.py: the iterable [Rectangle] class

    A shallow embedding of the Python module [CustomClassesInPython.py]:
    the class [Rectangle] with its constructor [__init__] and its
    generator method [__iter__], and the demonstration block run under
    [if __name__ == "__main__"].

    Python objects live in a heap and are reached through references, so
    that an attribute assigned between two requests on a generator is seen
    by the generator.  A generator is a heap object too: it holds the
    reference [self] it was created with and the point of the body of
    [__iter__] at which it is suspended. *)

From Stdlib Require Import ZArith Ascii String.
From stdpp Require Import base option list gmap strings pretty.

Local Open Scope string_scope.
Local Open Scope Z_scope.

#[local] Set Warnings "-register-all".

(** ** Values *)

(** The values the program handles: [None], booleans, integers, strings, and
    the dicts built by a dict display.  The entries of a dict are kept in
    insertion order; the keys are strings, as in the two displays of the
    source.  A dict display builds a new dict each time it is evaluated and
    nothing in the program updates a dict, so dicts are kept by value. *)
Inductive value : Type :=
| VNone
| VBool (b : bool)
| VInt (n : Z)
| VStr (s : string)
| VDict (items : list (string * value)).

(** ** [repr] and [str] *)

Definition backslash : ascii := "092"%char.
Definition squote : ascii := "039"%char.
Definition dquote : ascii := "034"%char.
Definition newline : string := String "010"%char EmptyString.

Definition hex_digit (n : N) : ascii :=
  default "0"%char (list_ascii_of_string "0123456789abcdef" !! N.to_nat n).

(** [\xHH], with lower-case digits. *)
Definition hex_escape (c : ascii) : string :=
  let n := N_of_ascii c in
  String backslash
    (String "x" (String (hex_digit (n / 16)) (String (hex_digit (n mod 16)) EmptyString))).

Definition contains (c : ascii) (s : string) : bool :=
  existsb (Ascii.eqb c) (list_ascii_of_string s).

(** The quote [repr] puts around a string: a single quote, unless the string
    has a single quote and no double quote. *)
Definition repr_quote (s : string) : ascii :=
  if contains squote s && negb (contains dquote s) then dquote else squote.

(** A character is a code point below 256.  Above 126 the ones that are not
    printable are the C1 controls, the no-break space and the soft hyphen. *)
Definition repr_char (quote : ascii) (c : ascii) : string :=
  let n := N_of_ascii c in
  if Ascii.eqb c quote || Ascii.eqb c backslash then String backslash (String c EmptyString)
  else if (n =? 9)%N then String backslash "t"
  else if (n =? 10)%N then String backslash "n"
  else if (n =? 13)%N then String backslash "r"
  else if (n <? 32)%N || (n =? 127)%N then hex_escape c
  else if (n <? 127)%N then String c EmptyString
  else if (n <=? 160)%N || (n =? 173)%N then hex_escape c
  else String c EmptyString.

Definition str_repr (s : string) : string :=
  let q := repr_quote s in
  String q (String.concat EmptyString (map (repr_char q) (list_ascii_of_string s))
            +:+ String q EmptyString).

Fixpoint repr (v : value) : string :=
  match v with
  | VNone => "None"
  | VBool true => "True"
  | VBool false => "False"
  | VInt n => pretty n
  | VStr s => str_repr s
  | VDict items =>
      "{" +:+ String.concat ", "
                (map (fun kv => match kv with
                                | (k, x) => str_repr k +:+ ": " +:+ repr x
                                end) items)
          +:+ "}"
  end.

(** [str(v)]: the string itself for a string, [repr(v)] for the rest. *)
Definition str (v : value) : string :=
  match v with
  | VStr s => s
  | _ => repr v
  end.

(** ** Heap, exceptions and the monad of statements *)

Definition loc := positive.

Inductive exn : Type := TypeError | AttributeError | StopIteration.

(** Where a generator made by [Rectangle.__iter__] stands: not started, held at
    the first [yield], held at the second [yield], or finished. *)
Inductive gen_pc : Type := Created | AtYield1 | AtYield2 | Closed.

(** An instance is its attribute dict ([__dict__]); a generator is the frame of
    a call of [__iter__]: its local [self] and its position. *)
Inductive obj : Type :=
| Instance (attrs : gmap string value)
| Generator (self : loc) (pc : gen_pc).

Record state : Type := State { heap : gmap loc obj; stdout : string }.

Definition set_heap (h : gmap loc obj) (s : state) : state :=
  {| heap := h; stdout := stdout s |}.

Definition initial_state : state := {| heap := ∅; stdout := EmptyString |}.

(** A statement ends normally with a result, or with an exception, or (for a
    loop run on fuel) does not end within its fuel. *)
Inductive outcome (A : Type) : Type :=
| Ok (a : A) (s : state)
| Raise (e : exn) (s : state)
| OutOfFuel.
Arguments Ok {A} a s.
Arguments Raise {A} e s.
Arguments OutOfFuel {A}.

Definition M (A : Type) : Type := state -> outcome A.

Definition ret {A} (a : A) : M A := fun s => Ok a s.
Definition raise {A} (e : exn) : M A := fun s => Raise e s.
Definition bind {A B} (m : M A) (k : A -> M B) : M B := fun s =>
  match m s with
  | Ok a s' => k a s'
  | Raise e s' => Raise e s'
  | OutOfFuel => OutOfFuel
  end.

Declare Scope py_scope.
Delimit Scope py_scope with py.
Notation "x <- m ;; k" := (bind m (fun x => k))
  (at level 100, m at next level, right associativity) : py_scope.
Notation "m ;; k" := (bind m (fun _ => k))
  (at level 100, right associativity) : py_scope.
Local Open Scope py_scope.

(** What a statement left behind, whatever way it ended. *)
Definition final_state {A} (o : outcome A) : option state :=
  match o with
  | Ok _ s | Raise _ s => Some s
  | OutOfFuel => None
  end.

(** The result without the state: the value, or the exception. *)
Definition result {A} (o : outcome A) : option (A + exn) :=
  match o with
  | Ok a _ => Some (inl a)
  | Raise e _ => Some (inr e)
  | OutOfFuel => None
  end.

(** A new object, at a reference not in use. *)
Definition alloc (o : obj) : M loc := fun s =>
  let l := fresh (dom (heap s)) in
  Ok l (set_heap (<[l := o]> (heap s)) s).

(** [o.name]: the class has no data attribute, so the attribute is looked up
    in the instance; a generator has none of the two names. *)
Definition getattr (o : loc) (name : string) : M value := fun s =>
  match heap s !! o with
  | Some (Instance attrs) =>
      match attrs !! name with
      | Some v => Ok v s
      | None => Raise AttributeError s
      end
  | _ => Raise AttributeError s
  end.

(** [o.name = v] *)
Definition setattr (o : loc) (name : string) (v : value) : M unit := fun s =>
  match heap s !! o with
  | Some (Instance attrs) =>
      Ok tt (set_heap (<[o := Instance (<[name := v]> attrs)]> (heap s)) s)
  | _ => Raise AttributeError s
  end.

(** [print(v)]: [str(v)] and a newline, on the standard output. *)
Definition print (v : value) : M unit := fun s =>
  Ok tt {| heap := heap s; stdout := stdout s +:+ str v +:+ newline |}.

(** ** Binding the arguments of a call *)

(** The parameters (after [self]) have no default.  Positional arguments fill
    the parameters from the left, and too many of them is a [TypeError]; a
    keyword that names no parameter, or one already filled, is a [TypeError];
    a parameter left unfilled is a [TypeError].  [None] stands for that error. *)
Fixpoint bind_keywords (params : list string) (kwargs : list (string * value))
    (bound : gmap string value) : option (gmap string value) :=
  match kwargs with
  | [] => Some bound
  | (k, v) :: rest =>
      if bool_decide (k ∈ params) && bool_decide (bound !! k = None)
      then bind_keywords params rest (<[k := v]> bound)
      else None
  end.

Definition bind_args (params : list string) (args : list value)
    (kwargs : list (string * value)) : option (gmap string value) :=
  if bool_decide (length args ≤ length params)%nat then
    match bind_keywords params kwargs (list_to_map (zip params args)) with
    | Some bound =>
        if forallb (fun p => bool_decide (is_Some (bound !! p))) params
        then Some bound else None
    | None => None
    end
  else None.

(** ** The class *)

Module Rectangle.

(** [def __init__(self, length: int, width: int)]; the annotations are not
    checked. *)
Definition __init__ (self : loc) (length width : value) : M unit :=
  setattr self "length" length ;;
  setattr self "width" width.

Definition params : list string := ["length"; "width"].

(** The call of the class on positional and keyword arguments: a new instance
    with no attribute, then [__init__] on it with the arguments bound; the
    reference is the result when [__init__] has returned.  An instance whose
    [__init__] was not run stays in the heap with nothing referring to it. *)
Definition call (args : list value) (kwargs : list (string * value)) : M loc :=
  self <- alloc (Instance ∅) ;;
  match bind_args params args kwargs with
  | Some bound =>
      match bound !! "length", bound !! "width" with
      | Some length, Some width => __init__ self length width ;; ret self
      | _, _ => raise TypeError
      end
  | None => raise TypeError
  end.

(** The body of [__iter__], run from position [pc] to the next [yield] or to
    its end:
<<
    yield {'length': self.length}
    yield {'width': self.width}
>>
    The result is the dict yielded and the position reached; the end of the
    body is [StopIteration]. *)
Definition resume (self : loc) (pc : gen_pc) : M (value * gen_pc) :=
  match pc with
  | Created =>
      v <- getattr self "length" ;;
      ret (VDict [("length", v)], AtYield1)
  | AtYield1 =>
      v <- getattr self "width" ;;
      ret (VDict [("width", v)], AtYield2)
  | AtYield2 => raise StopIteration
  | Closed => raise StopIteration
  end.

(** [__iter__] is a generator function: the call runs nothing of the body
    and returns a new generator. *)
Definition __iter__ (self : loc) : M loc :=
  alloc (Generator self Created).

End Rectangle.

(** ** Iteration protocol *)

(** [next(g)]: run the generator to its next [yield].  An exception that
    leaves the body (the end of the body too) closes the generator. *)
Definition next (g : loc) : M value := fun s =>
  match heap s !! g with
  | Some (Generator self pc) =>
      match Rectangle.resume self pc s with
      | Ok (v, pc') s' => Ok v (set_heap (<[g := Generator self pc']> (heap s')) s')
      | Raise e s' => Raise e (set_heap (<[g := Generator self Closed]> (heap s')) s')
      | OutOfFuel => OutOfFuel
      end
  | _ => Raise TypeError s
  end.

(** [iter(o)]: [Rectangle] is the one class, and a generator is its own
    iterator. *)
Definition iter (o : loc) : M loc := fun s =>
  match heap s !! o with
  | Some (Instance _) => Rectangle.__iter__ o s
  | Some (Generator _ _) => Ok o s
  | None => Raise TypeError s
  end.

(** [for x in it: body(x)] on an iterator, with fuel for the number of
    requests. *)
Fixpoint for_in (fuel : nat) (it : loc) (body : value -> M unit) : M unit := fun s =>
  match fuel with
  | O => OutOfFuel
  | S fuel' =>
      match next it s with
      | Ok v s' => (body v ;; for_in fuel' it body) s'
      | Raise StopIteration s' => Ok tt s'
      | Raise e s' => Raise e s'
      | OutOfFuel => OutOfFuel
      end
  end.

Definition for_each (fuel : nat) (o : loc) (body : value -> M unit) : M unit :=
  it <- iter o ;; for_in fuel it body.

(** The elements an iterator gives until it is exhausted. *)
Fixpoint collect (fuel : nat) (it : loc) : M (list value) := fun s =>
  match fuel with
  | O => OutOfFuel
  | S fuel' =>
      match next it s with
      | Ok v s' => (vs <- collect fuel' it ;; ret (v :: vs)) s'
      | Raise StopIteration s' => Ok [] s'
      | Raise e s' => Raise e s'
      | OutOfFuel => OutOfFuel
      end
  end.

(** [list(o)] *)
Definition py_list (fuel : nat) (o : loc) : M (list value) :=
  it <- iter o ;; collect fuel it.

(** ** The module *)

(** The statements of the module after the class definition, with the name the
    module is run under:
<<
      if __name__ == "__main__":
          rect = Rectangle(length=10, width=5)
          for attribute in rect:
              print(attribute)
>> *)
Definition module_body (fuel : nat) (__name__ : string) : M unit :=
  if String.eqb __name__ "__main__" then
    rect <- Rectangle.call [] [("length", VInt 10); ("width", VInt 5)] ;;
    for_each fuel rect (fun attribute => print attribute)
  else ret tt.

(** Running the file as a program: what is printed and the exit code, 0 when
    the module ends normally and 1 when an exception leaves it. *)
Definition run_script (fuel : nat) : option (string * Z) :=
  match module_body fuel "__main__" initial_state with
  | Ok _ s => Some (stdout s, 0)
  | Raise _ s => Some (stdout s, 1)
  | OutOfFuel => None
  end.

(** ** States, observations and client code the statements speak of *)

(** The instance a call leaves in the heap when the arguments bind. *)
Definition constructed (vl vw : value) (s : state) : state :=
  set_heap (<[fresh (dom (heap s)) :=
               Instance (<["width" := vw]> (<["length" := vl]> ∅))]> (heap s)) s.

(** [r] is a Rectangle holding [vl] and [vw]. *)
Definition rectangle_at (s : state) (r : loc) (vl vw : value) : Prop :=
  exists attrs, heap s !! r = Some (Instance attrs)
                /\ attrs !! "length" = Some vl /\ attrs !! "width" = Some vw.

(** The state after a request has moved generator [g] to position [pc]. *)
Definition moved (g self : loc) (pc : gen_pc) (s : state) : state :=
  set_heap (<[g := Generator self pc]> (heap s)) s.

(** The names a dict has, in order. *)
Definition keys (v : value) : list string :=
  match v with
  | VDict items => items.*1
  | _ => []
  end.

(** The state after [n] requests on [g], whatever way each ended. *)
Fixpoint advance (n : nat) (g : loc) (s : state) : state :=
  match n with
  | O => s
  | S n' =>
      match final_state (next g s) with
      | Some s' => advance n' g s'
      | None => s
      end
  end.

(** Two iterations of one object run in turns:
<<
      g1 = iter(r); g2 = iter(r)
      a = next(g1); b = next(g2); c = next(g2); d = next(g1)
>> *)
Definition interleaved (r : loc) : M (list value) :=
  g1 <- iter r ;;
  g2 <- iter r ;;
  a <- next g1 ;;
  b <- next g2 ;;
  c <- next g2 ;;
  d <- next g1 ;;
  ret [a; b; c; d].

(** The width assigned between the two elements of one iteration:
<<
      g = iter(r); a = next(g); r.width = v; b = next(g)
>> *)
Definition reassigned_width (r : loc) (v : value) : M (list value) :=
  g <- iter r ;;
  a <- next g ;;
  setattr r "width" v ;;
  b <- next g ;;
  ret [a; b].

(** The parameter at position [i] named [name] is given by the call, by
    position or by keyword. *)
Definition supplied (i : nat) (name : string) (args : list value)
    (kwargs : list (string * value)) : bool :=
  bool_decide (i < length args)%nat || bool_decide (name ∈ kwargs.*1).

(** The call leaves out [length] or [width]. *)
Definition omitted (args : list value) (kwargs : list (string * value)) : bool :=
  negb (supplied 0 "length" args kwargs) || negb (supplied 1 "width" args kwargs).

(** The instances in the heap, with their attributes. *)
Definition instances (s : state) : list (loc * gmap string value) :=
  omap (fun lo => match lo with
                  | (l, Instance attrs) => Some (l, attrs)
                  | _ => None
                  end) (map_to_list (heap s)).

(** What iterating gives as a function of the two attributes, each present or
    not: the two dicts, or the [AttributeError] of the first one missing. *)
Definition items (length width : option value) : list value + exn :=
  match length, width with
  | Some vl, Some vw => inl [VDict [("length", vl)]; VDict [("width", vw)]]
  | _, _ => inr AttributeError
  end.

(** ** Further client code and observations *)

(** The calls that give each of [length] and [width] once, and the two values
    they give: both by position, the length by position and the width by
    keyword, or both by keyword in either order. *)
Definition accepted_call (args : list value) (kwargs : list (string * value))
    : option (value * value) :=
  match args, kwargs with
  | [vl; vw], [] => Some (vl, vw)
  | [vl], [(k, vw)] => if String.eqb k "width" then Some (vl, vw) else None
  | [], [(k1, v1); (k2, v2)] =>
      if String.eqb k1 "length" && String.eqb k2 "width" then Some (v1, v2)
      else if String.eqb k1 "width" && String.eqb k2 "length" then Some (v2, v1)
      else None
  | _, _ => None
  end.

(** The state a call leaves when the arguments do not bind: the new instance,
    without attributes. *)
Definition unformed (s : state) : state :=
  set_heap (<[fresh (dom (heap s)) := Instance ∅]> (heap s)) s.

(** How far a generator is: the number of elements it has given, an ended
    generator counting as having given both. *)
Definition pc_rank (pc : gen_pc) : nat :=
  match pc with
  | Created => 0
  | AtYield1 => 1
  | AtYield2 => 2
  | Closed => 2
  end.

(** One generator listed twice:
<<
      g = iter(r); a = list(g); b = list(g)
>> *)
Definition list_twice (fuel : nat) (r : loc) : M (list value * list value) :=
  g <- iter r ;;
  a <- py_list fuel g ;;
  b <- py_list fuel g ;;
  ret (a, b).

(** One element taken, then the rest listed:
<<
      g = iter(r); a = next(g); rest = list(g)
>> *)
Definition rest_after_first (fuel : nat) (r : loc) : M (value * list value) :=
  g <- iter r ;;
  a <- next g ;;
  rest <- py_list fuel g ;;
  ret (a, rest).

(** Two Rectangles, the width of the first assigned, both listed:
<<
      r1 = Rectangle(length=l1, width=w1); r2 = Rectangle(length=l2, width=w2)
      r1.width = v
      a = list(r1); b = list(r2)
>> *)
Definition two_rectangles (fuel : nat) (l1 w1 l2 w2 v : value)
    : M (list value * list value) :=
  r1 <- Rectangle.call [] [("length", l1); ("width", w1)] ;;
  r2 <- Rectangle.call [] [("length", l2); ("width", w2)] ;;
  setattr r1 "width" v ;;
  a <- py_list fuel r1 ;;
  b <- py_list fuel r2 ;;
  ret (a, b).

(** The length assigned after the generator was made and before its first
    element is asked for:
<<
      g = iter(r); r.length = v; out = list(g)
>> *)
Definition reassigned_length (fuel : nat) (r : loc) (v : value) : M (list value) :=
  g <- iter r ;;
  setattr r "length" v ;;
  py_list fuel g.

(** * Properties *)

(** ** The monad and the primitives *)

Lemma bind_Ok {A B} (m : M A) (k : A -> M B) s a s' :
  m s = Ok a s' -> bind m k s = k a s'.
Proof. intros H. unfold bind. now rewrite H. Qed.

Lemma bind_Raise {A B} (m : M A) (k : A -> M B) s e s' :
  m s = Raise e s' -> bind m k s = Raise e s'.
Proof. intros H. unfold bind. now rewrite H. Qed.

Lemma alloc_unused (s : state) : heap s !! fresh (dom (heap s)) = None.
Proof. apply not_elem_of_dom, is_fresh. Qed.

Lemma getattr_Instance o name s attrs v :
  heap s !! o = Some (Instance attrs) -> attrs !! name = Some v ->
  getattr o name s = Ok v s.
Proof. intros Ho Hv. unfold getattr. now rewrite Ho, Hv. Qed.

Lemma setattr_Instance o name v s attrs :
  heap s !! o = Some (Instance attrs) ->
  setattr o name v s
  = Ok tt (set_heap (<[o := Instance (<[name := v]> attrs)]> (heap s)) s).
Proof. intros Ho. unfold setattr. now rewrite Ho. Qed.

(** Reading an attribute changes nothing, whatever way it ends. *)
Lemma getattr_final_state o name s : final_state (getattr o name s) = Some s.
Proof.
  unfold getattr. destruct (heap s !! o) as [[attrs|self pc]|]; try reflexivity.
  now destruct (attrs !! name).
Qed.

(** Running the body of [__iter__] to its next [yield] changes nothing. *)
Lemma resume_final_state self pc s :
  final_state (Rectangle.resume self pc s) = Some s.
Proof.
  destruct pc; try reflexivity; unfold Rectangle.resume, bind;
    match goal with
    | |- context [getattr ?o ?n s] =>
        pose proof (getattr_final_state o n s) as H;
        destruct (getattr o n s); simpl in *; congruence
    end.
Qed.

(** A request on a generator changes the generator and nothing else. *)
Lemma next_final_state g s s' :
  final_state (next g s) = Some s' ->
  stdout s' = stdout s /\ forall l, l <> g -> heap s' !! l = heap s !! l.
Proof.
  unfold next. destruct (heap s !! g) as [[attrs|self pc]|] eqn:Hg;
    try (simpl; intros [= <-]; now split).
  pose proof (resume_final_state self pc s) as H.
  destruct (Rectangle.resume self pc s) as [[v pc'] s1|e s1|]; simpl in *;
    try discriminate; injection H as ->; intros [= <-]; simpl;
    (split; [reflexivity | intros l Hl; now rewrite lookup_insert_ne]).
Qed.

(** ** The constructor *)

Lemma init_Instance self vl vw s attrs :
  heap s !! self = Some (Instance attrs) ->
  Rectangle.__init__ self vl vw s
  = Ok tt (set_heap (<[self := Instance (<["width" := vw]> (<["length" := vl]> attrs))]>
                       (heap s)) s).
Proof.
  intros Hs. unfold Rectangle.__init__.
  rewrite (bind_Ok _ _ _ _ _ (setattr_Instance _ _ _ _ _ Hs)).
  erewrite setattr_Instance by (simpl; apply lookup_insert_eq).
  simpl. now rewrite insert_insert_eq.
Qed.

Lemma call_bound args kwargs bound vl vw s :
  bind_args Rectangle.params args kwargs = Some bound ->
  bound !! "length" = Some vl -> bound !! "width" = Some vw ->
  Rectangle.call args kwargs s = Ok (fresh (dom (heap s))) (constructed vl vw s).
Proof.
  intros Hb Hl Hw. unfold Rectangle.call.
  rewrite (bind_Ok _ _ s (fresh (dom (heap s)))
             (set_heap (<[fresh (dom (heap s)) := Instance ∅]> (heap s)) s))
    by reflexivity.
  rewrite Hb, Hl, Hw.
  erewrite bind_Ok by (apply init_Instance; simpl; apply lookup_insert_eq).
  unfold ret, constructed. simpl. now rewrite insert_insert_eq.
Qed.

Lemma bind_args_keywords vl vw :
  bind_args Rectangle.params [] [("length", vl); ("width", vw)]
  = Some (<["width" := vw]> (<["length" := vl]> ∅)).
Proof. vm_compute. reflexivity. Qed.

Lemma bind_args_positional vl vw :
  bind_args Rectangle.params [vl; vw] []
  = Some (<["width" := vw]> (<["length" := vl]> ∅)).
Proof. vm_compute. reflexivity. Qed.

(** ** Iteration *)

Lemma rectangle_not_generator s r vl vw g self pc :
  rectangle_at s r vl vw -> heap s !! g = Some (Generator self pc) -> g <> r.
Proof. intros (attrs & Hr & _) Hg ->. congruence. Qed.

Lemma rectangle_at_moved s r vl vw g self pc :
  g <> r -> rectangle_at s r vl vw -> rectangle_at (moved g self pc s) r vl vw.
Proof.
  intros Hne (attrs & Hr & Hl & Hw). exists attrs. simpl.
  now rewrite lookup_insert_ne.
Qed.

Lemma moved_moved g self pc pc' s :
  moved g self pc' (moved g self pc s) = moved g self pc' s.
Proof. unfold moved, set_heap. simpl. now rewrite insert_insert_eq. Qed.

Lemma lookup_moved g self pc s : heap (moved g self pc s) !! g = Some (Generator self pc).
Proof. simpl. apply lookup_insert_eq. Qed.

Lemma next_Created g r s vl vw :
  heap s !! g = Some (Generator r Created) -> rectangle_at s r vl vw ->
  next g s = Ok (VDict [("length", vl)]) (moved g r AtYield1 s).
Proof.
  intros Hg (attrs & Hr & Hl & _). unfold next. rewrite Hg. simpl.
  now rewrite (bind_Ok _ _ _ _ _ (getattr_Instance _ _ _ _ _ Hr Hl)).
Qed.

Lemma next_AtYield1 g r s vl vw :
  heap s !! g = Some (Generator r AtYield1) -> rectangle_at s r vl vw ->
  next g s = Ok (VDict [("width", vw)]) (moved g r AtYield2 s).
Proof.
  intros Hg (attrs & Hr & _ & Hw). unfold next. rewrite Hg. simpl.
  now rewrite (bind_Ok _ _ _ _ _ (getattr_Instance _ _ _ _ _ Hr Hw)).
Qed.

Lemma next_AtYield2 g r s :
  heap s !! g = Some (Generator r AtYield2) ->
  next g s = Raise StopIteration (moved g r Closed s).
Proof. intros Hg. unfold next. now rewrite Hg. Qed.

Lemma next_Closed g r s :
  heap s !! g = Some (Generator r Closed) ->
  next g s = Raise StopIteration (moved g r Closed s).
Proof. intros Hg. unfold next. now rewrite Hg. Qed.

(** A generator not yet started on a Rectangle gives the two dicts and is then
    exhausted; three requests are enough. *)
Lemma collect_Created fuel g r s vl vw :
  (3 <= fuel)%nat ->
  heap s !! g = Some (Generator r Created) -> rectangle_at s r vl vw ->
  collect fuel g s
  = Ok [VDict [("length", vl)]; VDict [("width", vw)]] (moved g r Closed s).
Proof.
  intros Hfuel Hg Hr.
  destruct fuel as [|[|[|fuel]]]; try lia.
  pose proof (rectangle_not_generator _ _ _ _ _ _ _ Hr Hg) as Hne.
  cbn [collect]. rewrite (next_Created _ _ _ _ _ Hg Hr).
  unfold bind at 1. cbn [collect].
  rewrite (next_AtYield1 g r _ vl vw)
    by (apply lookup_moved || now apply rectangle_at_moved).
  unfold bind at 1. cbn [collect].
  rewrite (next_AtYield2 g r) by apply lookup_moved.
  unfold bind, ret. now rewrite !moved_moved.
Qed.

Lemma iter_Instance r s attrs :
  heap s !! r = Some (Instance attrs) ->
  iter r s = Ok (fresh (dom (heap s))) (moved (fresh (dom (heap s))) r Created s).
Proof. intros Hr. unfold iter. now rewrite Hr. Qed.

Lemma fresh_not_rectangle s r vl vw :
  rectangle_at s r vl vw -> fresh (dom (heap s)) <> r.
Proof.
  intros (attrs & Hr & _) E. pose proof (alloc_unused s) as H.
  rewrite E in H. congruence.
Qed.

(** [list(r)] on a Rectangle: the two dicts, and one new exhausted generator
    left in the heap. *)
Lemma py_list_rectangle fuel r s vl vw :
  (3 <= fuel)%nat -> rectangle_at s r vl vw ->
  py_list fuel r s
  = Ok [VDict [("length", vl)]; VDict [("width", vw)]]
       (moved (fresh (dom (heap s))) r Closed s).
Proof.
  intros Hfuel Hr. pose proof Hr as (attrs & Hattrs & _).
  unfold py_list. rewrite (bind_Ok _ _ _ _ _ (iter_Instance _ _ _ Hattrs)).
  rewrite (collect_Created fuel _ r _ vl vw); try done.
  - now rewrite moved_moved.
  - apply lookup_moved.
  - apply rectangle_at_moved; [now apply (fresh_not_rectangle s r vl vw) | done].
Qed.

Lemma rectangle_at_constructed vl vw s :
  rectangle_at (constructed vl vw s) (fresh (dom (heap s))) vl vw.
Proof.
  eexists. simpl. rewrite lookup_insert_eq. split; [reflexivity|].
  split; [now rewrite lookup_insert_ne, lookup_insert_eq | apply lookup_insert_eq].
Qed.

Lemma call_keywords vl vw s :
  Rectangle.call [] [("length", vl); ("width", vw)] s
  = Ok (fresh (dom (heap s))) (constructed vl vw s).
Proof.
  apply (call_bound _ _ _ _ _ _ (bind_args_keywords vl vw)).
  - now rewrite lookup_insert_ne, lookup_insert_eq.
  - apply lookup_insert_eq.
Qed.

Lemma call_positional vl vw s :
  Rectangle.call [vl; vw] [] s
  = Ok (fresh (dom (heap s))) (constructed vl vw s).
Proof.
  apply (call_bound _ _ _ _ _ _ (bind_args_positional vl vw)).
  - now rewrite lookup_insert_ne, lookup_insert_eq.
  - apply lookup_insert_eq.
Qed.

(** A request never runs out of fuel: it has none. *)
Lemma next_ends g s : is_Some (final_state (next g s)).
Proof.
  unfold next. destruct (heap s !! g) as [[attrs|self pc]|]; try (now eexists).
  pose proof (resume_final_state self pc s) as H.
  destruct (Rectangle.resume self pc s) as [[v pc'] s1|e s1|]; simpl in *;
    try discriminate; now eexists.
Qed.

(** A request leaves every instance as it was, the object asked included. *)
Lemma next_preserves_instance g s s' l attrs :
  final_state (next g s) = Some s' ->
  heap s !! l = Some (Instance attrs) -> heap s' !! l = Some (Instance attrs).
Proof.
  intros Hn Hl. destruct (decide (l = g)) as [->|Hne].
  - unfold next in Hn. rewrite Hl in Hn. simpl in Hn. congruence.
  - destruct (next_final_state _ _ _ Hn) as [_ H]. now rewrite H.
Qed.

Lemma advance_preserves_instance n g s l attrs :
  heap s !! l = Some (Instance attrs) ->
  heap (advance n g s) !! l = Some (Instance attrs).
Proof.
  revert s. induction n as [|n IH]; intros s Hl; [exact Hl|].
  simpl. destruct (final_state (next g s)) as [s'|] eqn:Hn; [|exact Hl].
  apply IH. eapply next_preserves_instance; eauto.
Qed.

(** ** The claims *)

(** C1: for all integers [l] and [w], constructing a Rectangle with
    [length=l, width=w] (by keyword, or by position) and iterating it gives
    exactly the list of two dicts [{'length': l}] then [{'width': w}], with
    the values as given. *)
Theorem construct_then_iterate (l w : Z) (fuel : nat) (s : state) :
  (3 <= fuel)%nat ->
  (exists s',
     (r <- Rectangle.call [] [("length", VInt l); ("width", VInt w)] ;;
      py_list fuel r) s
     = Ok [VDict [("length", VInt l)]; VDict [("width", VInt w)]] s')
  /\ (exists s',
        (r <- Rectangle.call [VInt l; VInt w] [] ;; py_list fuel r) s
        = Ok [VDict [("length", VInt l)]; VDict [("width", VInt w)]] s').
Proof.
  intros Hfuel. split; eexists.
  - rewrite (bind_Ok _ _ _ _ _ (call_keywords _ _ s)).
    apply py_list_rectangle; [exact Hfuel | apply rectangle_at_constructed].
  - rewrite (bind_Ok _ _ _ _ _ (call_positional _ _ s)).
    apply py_list_rectangle; [exact Hfuel | apply rectangle_at_constructed].
Qed.

Lemma construct_then_iterate_witness :
  (3 <= 3)%nat
  /\ (exists s',
        (r <- Rectangle.call [] [("length", VInt 7); ("width", VInt 2)] ;;
         py_list 3 r) initial_state
        = Ok [VDict [("length", VInt 7)]; VDict [("width", VInt 2)]] s')
  /\ (exists s',
        (r <- Rectangle.call [VInt 7; VInt 2] [] ;; py_list 3 r) initial_state
        = Ok [VDict [("length", VInt 7)]; VDict [("width", VInt 2)]] s').
Proof.
  split; [lia | apply (construct_then_iterate 7 2 3 initial_state); lia].
Defined.

Lemma lookup_moved_ne g self pc s l :
  g <> l -> heap (moved g self pc s) !! l = heap s !! l.
Proof. intros Hne. simpl. now rewrite lookup_insert_ne. Qed.

Ltac generator_lookup :=
  repeat (rewrite lookup_moved_ne by congruence); apply lookup_moved.
Ltac rectangle_moved :=
  repeat (apply rectangle_at_moved; [congruence|]); assumption.

(** Two generators on one Rectangle, asked in turns, each give the length
    first and the width second. *)
Lemma interleaved_rectangle r s vl vw :
  rectangle_at s r vl vw ->
  exists s',
    interleaved r s
    = Ok [VDict [("length", vl)]; VDict [("length", vl)];
          VDict [("width", vw)]; VDict [("width", vw)]] s'.
Proof.
  intros Hr. pose proof Hr as (attrs & Hattrs & _).
  unfold interleaved.
  rewrite (bind_Ok _ _ _ _ _ (iter_Instance _ _ _ Hattrs)).
  pose proof (fresh_not_rectangle _ _ _ _ Hr) as Hg1.
  set (g1 := fresh (dom (heap s))) in *. set (s1 := moved g1 r Created s).
  assert (Hr1 : rectangle_at s1 r vl vw) by (subst s1; rectangle_moved).
  pose proof Hr1 as (attrs1 & Hattrs1 & _).
  rewrite (bind_Ok _ _ _ _ _ (iter_Instance _ _ _ Hattrs1)).
  pose proof (fresh_not_rectangle _ _ _ _ Hr1) as Hg2.
  pose proof (alloc_unused s1) as Hnew.
  set (g2 := fresh (dom (heap s1))) in *.
  assert (Hne : g2 <> g1).
  { intros E. rewrite E in Hnew. subst s1. rewrite lookup_moved in Hnew. discriminate. }
  erewrite bind_Ok
    by (apply (next_Created g1 r _ vl vw); [generator_lookup | rectangle_moved]).
  erewrite bind_Ok
    by (apply (next_Created g2 r _ vl vw); [generator_lookup | rectangle_moved]).
  erewrite bind_Ok
    by (apply (next_AtYield1 g2 r _ vl vw); [generator_lookup | rectangle_moved]).
  erewrite bind_Ok
    by (apply (next_AtYield1 g1 r _ vl vw); [generator_lookup | rectangle_moved]).
  now eexists.
Qed.

(** C2: iterating one Rectangle twice, with no assignment in between, gives
    two equal lists; a new iteration starts from the first element whatever
    requests were made before on any generator; and two iterations run in
    turns do not disturb each other. *)
Theorem iteration_restartable (fuel : nat) (r : loc) (s : state) (vl vw : value) :
  (3 <= fuel)%nat -> rectangle_at s r vl vw ->
  (exists out s1 s2,
     py_list fuel r s = Ok out s1 /\ py_list fuel r s1 = Ok out s2
     /\ out = [VDict [("length", vl)]; VDict [("width", vw)]])
  /\ (forall g n,
        result (py_list fuel r (advance n g s))
        = Some (inl [VDict [("length", vl)]; VDict [("width", vw)]]))
  /\ (exists s',
        interleaved r s
        = Ok [VDict [("length", vl)]; VDict [("length", vl)];
              VDict [("width", vw)]; VDict [("width", vw)]] s').
Proof.
  intros Hfuel Hr. split; [|split].
  - pose proof (fresh_not_rectangle _ _ _ _ Hr) as Hg.
    do 3 eexists.
    split; [apply (py_list_rectangle fuel r s vl vw); assumption|].
    split; [|reflexivity].
    apply py_list_rectangle; [exact Hfuel | rectangle_moved].
  - intros g n. destruct Hr as (attrs & Hattrs & Hl & Hw).
    rewrite (py_list_rectangle fuel r _ vl vw); [reflexivity | exact Hfuel |].
    exists attrs. split; [now apply advance_preserves_instance | now split].
  - now apply interleaved_rectangle.
Qed.

Lemma iteration_restartable_witness :
  (3 <= 3)%nat
  /\ rectangle_at (constructed (VInt 10) (VInt 5) initial_state) 1%positive (VInt 10) (VInt 5)
  /\ (exists out s1 s2,
        py_list 3 1%positive (constructed (VInt 10) (VInt 5) initial_state) = Ok out s1
        /\ py_list 3 1%positive s1 = Ok out s2
        /\ out = [VDict [("length", VInt 10)]; VDict [("width", VInt 5)]]).
Proof.
  assert (H : rectangle_at (constructed (VInt 10) (VInt 5) initial_state) 1%positive
                (VInt 10) (VInt 5)).
  { eexists. repeat split; vm_compute; reflexivity. }
  split; [lia|]. split; [exact H|].
  apply (iteration_restartable 3 1%positive _ (VInt 10) (VInt 5)); [lia | exact H].
Defined.

(** C3: whatever the two values are, the dict named [length] comes before the
    dict named [width]. *)
Theorem length_before_width (fuel : nat) (r : loc) (s : state) (vl vw : value) :
  (3 <= fuel)%nat -> rectangle_at s r vl vw ->
  exists out s',
    py_list fuel r s = Ok out s'
    /\ keys <$> out = [["length"]; ["width"]]
    /\ forall i j vi vj,
         out !! i = Some vi -> out !! j = Some vj ->
         "length" ∈ keys vi -> "width" ∈ keys vj -> (i < j)%nat.
Proof.
  intros Hfuel Hr. do 2 eexists.
  split; [apply (py_list_rectangle fuel r s vl vw); assumption|].
  split; [reflexivity|].
  intros i j vi vj Hi Hj Hki Hkj.
  destruct i as [|[|i]]; simpl in Hi; try discriminate;
    destruct j as [|[|j]]; simpl in Hj; try discriminate;
    injection Hi as <-; injection Hj as <-; simpl in *;
    try lia;
    repeat match goal with
           | H : _ ∈ [_] |- _ => apply list_elem_of_singleton in H; try discriminate H
           end.
Qed.

Lemma length_before_width_witness :
  (3 <= 3)%nat
  /\ rectangle_at (constructed (VStr "wide") VNone initial_state) 1%positive (VStr "wide") VNone
  /\ exists out s',
       py_list 3 1%positive (constructed (VStr "wide") VNone initial_state) = Ok out s'
       /\ keys <$> out = [["length"]; ["width"]]
       /\ forall i j vi vj,
            out !! i = Some vi -> out !! j = Some vj ->
            "length" ∈ keys vi -> "width" ∈ keys vj -> (i < j)%nat.
Proof.
  assert (H : rectangle_at (constructed (VStr "wide") VNone initial_state) 1%positive
                (VStr "wide") VNone).
  { eexists. repeat split; vm_compute; reflexivity. }
  split; [lia|]. split; [exact H|].
  apply (length_before_width 3 1%positive _ (VStr "wide") VNone); [lia | exact H].
Defined.

(** C4: iterating a Rectangle to the end leaves its attributes as they were,
    and so does each single request on a generator. *)
Theorem iteration_preserves_fields (fuel : nat) (r : loc) (s : state)
    (attrs : gmap string value) (vl vw : value) :
  (3 <= fuel)%nat ->
  heap s !! r = Some (Instance attrs) ->
  attrs !! "length" = Some vl -> attrs !! "width" = Some vw ->
  (exists out s',
     py_list fuel r s = Ok out s'
     /\ heap s' !! r = Some (Instance attrs)
     /\ getattr r "length" s' = Ok vl s' /\ getattr r "width" s' = Ok vw s')
  /\ (forall g s0 s1,
        heap s0 !! r = Some (Instance attrs) ->
        final_state (next g s0) = Some s1 ->
        heap s1 !! r = Some (Instance attrs)).
Proof.
  intros Hfuel Hr Hl Hw. split.
  - assert (Hrect : rectangle_at s r vl vw) by (exists attrs; auto).
    pose proof (fresh_not_rectangle _ _ _ _ Hrect) as Hg.
    do 2 eexists. split; [now apply (py_list_rectangle fuel r s vl vw)|].
    assert (H : heap (moved (fresh (dom (heap s))) r Closed s) !! r
                = Some (Instance attrs))
      by now rewrite lookup_moved_ne.
    split; [exact H|]. split; now apply (getattr_Instance _ _ _ attrs).
  - intros g s0 s1 H0 Hn. eapply next_preserves_instance; eauto.
Qed.

Lemma iteration_preserves_fields_witness :
  (3 <= 3)%nat
  /\ heap (constructed (VInt 10) (VInt 5) initial_state) !! 1%positive
     = Some (Instance (<["width" := VInt 5]> (<["length" := VInt 10]> ∅)))
  /\ exists out s',
       py_list 3 1%positive (constructed (VInt 10) (VInt 5) initial_state) = Ok out s'
       /\ heap s' !! 1%positive
          = Some (Instance (<["width" := VInt 5]> (<["length" := VInt 10]> ∅))).
Proof.
  split; [lia|]. split; [vm_compute; reflexivity|].
  destruct (iteration_preserves_fields 3 1%positive
              (constructed (VInt 10) (VInt 5) initial_state)
              (<["width" := VInt 5]> (<["length" := VInt 10]> ∅)) (VInt 10) (VInt 5))
    as [(out & s' & Hout & Hs' & _) _];
    [lia | vm_compute; reflexivity | vm_compute; reflexivity
     | vm_compute; reflexivity |].
  exists out, s'. now split.
Defined.

(** C5: whatever values the two attributes hold, integers or not, iterating the
    Rectangle ends (three requests are enough), raises nothing and gives
    exactly two elements. *)
Theorem iteration_total (fuel : nat) (r : loc) (s : state) (vl vw : value) :
  (3 <= fuel)%nat -> rectangle_at s r vl vw ->
  exists out s', py_list fuel r s = Ok out s' /\ length out = 2%nat.
Proof.
  intros Hfuel Hr. do 2 eexists.
  split; [apply (py_list_rectangle fuel r s vl vw); assumption | reflexivity].
Qed.

Lemma iteration_total_witness :
  (3 <= 3)%nat
  /\ rectangle_at (constructed (VStr "ten") (VDict [("w", VBool true)]) initial_state)
       1%positive (VStr "ten") (VDict [("w", VBool true)])
  /\ exists out s',
       py_list 3 1%positive
         (constructed (VStr "ten") (VDict [("w", VBool true)]) initial_state)
       = Ok out s'
       /\ length out = 2%nat.
Proof.
  assert (H : rectangle_at
                (constructed (VStr "ten") (VDict [("w", VBool true)]) initial_state)
                1%positive (VStr "ten") (VDict [("w", VBool true)])).
  { eexists. repeat split; vm_compute; reflexivity. }
  split; [lia|]. split; [exact H|].
  apply (iteration_total 3 1%positive _ (VStr "ten") (VDict [("w", VBool true)]));
    [lia | exact H].
Defined.

(** C6: zero and negative integers are taken by the constructor as they are:
    the call returns a Rectangle holding them, and iterating it gives the two
    dicts with them; for [length=0, width=-5], the dicts [{'length': 0}] and
    [{'width': -5}]. *)
Theorem nonpositive_accepted (l w : Z) (fuel : nat) (s : state) :
  (3 <= fuel)%nat -> l <= 0 -> w <= 0 ->
  exists r s1 s2,
    Rectangle.call [] [("length", VInt l); ("width", VInt w)] s = Ok r s1
    /\ rectangle_at s1 r (VInt l) (VInt w)
    /\ py_list fuel r s1
       = Ok [VDict [("length", VInt l)]; VDict [("width", VInt w)]] s2.
Proof.
  intros Hfuel _ _. do 3 eexists. split; [apply call_keywords|].
  split; [apply rectangle_at_constructed|].
  apply py_list_rectangle; [exact Hfuel | apply rectangle_at_constructed].
Qed.

Lemma nonpositive_accepted_witness :
  (3 <= 3)%nat /\ 0 <= 0 /\ -5 <= 0
  /\ exists r s1 s2,
       Rectangle.call [] [("length", VInt 0); ("width", VInt (-5))] initial_state
       = Ok r s1
       /\ rectangle_at s1 r (VInt 0) (VInt (-5))
       /\ py_list 3 r s1
          = Ok [VDict [("length", VInt 0)]; VDict [("width", VInt (-5))]] s2.
Proof.
  repeat (split; [lia|]).
  apply (nonpositive_accepted 0 (-5) 3 initial_state); lia.
Defined.

(** C7: run as a program, the file builds one Rectangle, with length 10 and
    width 5, prints the two lines [{'length': 10}] and [{'width': 5}] in this
    order and nothing else, and exits with code 0. *)
Theorem script_output (fuel : nat) :
  (3 <= fuel)%nat ->
  run_script fuel
  = Some ("{'length': 10}" +:+ newline +:+ "{'width': 5}" +:+ newline, 0)
  /\ exists s',
       module_body fuel "__main__" initial_state = Ok tt s'
       /\ instances s'
          = [(1%positive, <["width" := VInt 5]> (<["length" := VInt 10]> ∅))].
Proof.
  intros Hfuel. destruct fuel as [|[|[|fuel]]]; try lia.
  split; [vm_compute; reflexivity|].
  eexists. split; vm_compute; reflexivity.
Qed.

Lemma script_output_witness :
  (3 <= 3)%nat
  /\ run_script 3
     = Some ("{'length': 10}" +:+ newline +:+ "{'width': 5}" +:+ newline, 0).
Proof.
  split; [lia | apply (script_output 3); lia].
Defined.

(** ** Argument binding *)

Lemma bind_keywords_lookup params kwargs bound bound' k :
  bind_keywords params kwargs bound = Some bound' ->
  is_Some (bound' !! k) -> is_Some (bound !! k) \/ k ∈ kwargs.*1.
Proof.
  revert bound. induction kwargs as [|[k0 v0] rest IH]; intros bound; simpl.
  - intros [= <-]. now left.
  - destruct (bool_decide (k0 ∈ params) && bool_decide (bound !! k0 = None));
      [|discriminate].
    intros Hrest Hk. destruct (IH _ Hrest Hk) as [Hin|Hin].
    + destruct (decide (k0 = k)) as [->|Hne].
      * right. apply list_elem_of_here.
      * left. now rewrite lookup_insert_ne in Hin.
    + right. now apply list_elem_of_further.
Qed.

Lemma positional_length args :
  is_Some ((list_to_map (zip Rectangle.params args) : gmap string value) !! "length") ->
  (0 < length args)%nat.
Proof. destruct args; [intros [x Hx]; vm_compute in Hx; discriminate | simpl; lia]. Qed.

Lemma positional_width args :
  is_Some ((list_to_map (zip Rectangle.params args) : gmap string value) !! "width") ->
  (1 < length args)%nat.
Proof.
  destruct args as [|v1 [|v2 args]];
    [intros [x Hx]; vm_compute in Hx; discriminate ..| simpl; lia].
Qed.

(** When the arguments bind, both parameters were given. *)
Lemma bind_args_supplied args kwargs bound :
  bind_args Rectangle.params args kwargs = Some bound ->
  omitted args kwargs = false
  /\ is_Some (bound !! "length") /\ is_Some (bound !! "width").
Proof.
  unfold bind_args. destruct (bool_decide _); [|discriminate].
  destruct (bind_keywords _ _ _) as [b|] eqn:Hkw; [|discriminate].
  destruct (forallb _ _) eqn:Hall; [|discriminate]. intros [= <-].
  simpl in Hall. apply andb_prop in Hall as [Hl Hw].
  apply andb_prop in Hw as [Hw _].
  apply bool_decide_eq_true in Hl, Hw. split; [|now split].
  unfold omitted, supplied.
  destruct (bind_keywords_lookup _ _ _ _ _ Hkw Hl) as [H|H];
    [apply positional_length in H; rewrite (bool_decide_eq_true_2 _ H)
    |rewrite (bool_decide_eq_true_2 _ H), orb_true_r];
    (destruct (bind_keywords_lookup _ _ _ _ _ Hkw Hw) as [H'|H'];
     [apply positional_width in H'; now rewrite (bool_decide_eq_true_2 _ H')
     |now rewrite (bool_decide_eq_true_2 _ H'), orb_true_r]).
Qed.

(** A call that returns, returns a Rectangle with both attributes. *)
Lemma call_Ok_formed args kwargs s r s' :
  Rectangle.call args kwargs s = Ok r s' ->
  omitted args kwargs = false
  /\ exists vl vw, r = fresh (dom (heap s)) /\ s' = constructed vl vw s.
Proof.
  unfold Rectangle.call.
  rewrite (bind_Ok _ _ s (fresh (dom (heap s)))
             (set_heap (<[fresh (dom (heap s)) := Instance ∅]> (heap s)) s))
    by reflexivity.
  destruct (bind_args Rectangle.params args kwargs) as [bound|] eqn:Hb;
    [|discriminate].
  destruct (bind_args_supplied _ _ _ Hb) as (Hom & [vl Hl] & [vw Hw]).
  intros Hcall. split; [exact Hom|]. exists vl, vw.
  pose proof (call_bound _ _ _ _ _ s Hb Hl Hw) as Hok.
  unfold Rectangle.call in Hok.
  rewrite (bind_Ok _ _ s (fresh (dom (heap s)))
             (set_heap (<[fresh (dom (heap s)) := Instance ∅]> (heap s)) s)) in Hok
    by reflexivity.
  rewrite Hb in Hok. rewrite Hok in Hcall. now injection Hcall as <- <-.
Qed.

(** C8: a call that leaves out [length] or [width] ends with the [TypeError]
    of argument binding; the error goes to the caller, whose next statements
    do not run; no reference is returned (the object made for the call has no
    attribute and nothing refers to it), and the objects there before are as
    they were. *)
Theorem omitted_argument_fails (args : list value) (kwargs : list (string * value))
    (s : state) :
  omitted args kwargs = true ->
  exists s',
    Rectangle.call args kwargs s = Raise TypeError s'
    /\ (forall B (k : loc -> M B),
          (r <- Rectangle.call args kwargs ;; k r) s = Raise TypeError s')
    /\ (forall r s'', Rectangle.call args kwargs s <> Ok r s'')
    /\ (forall l o, heap s !! l = Some o -> heap s' !! l = Some o)
    /\ stdout s' = stdout s.
Proof.
  intros Hom.
  assert (Hcall : Rectangle.call args kwargs s
                  = Raise TypeError
                      (set_heap (<[fresh (dom (heap s)) := Instance ∅]> (heap s)) s)).
  { unfold Rectangle.call.
    rewrite (bind_Ok _ _ s (fresh (dom (heap s)))
               (set_heap (<[fresh (dom (heap s)) := Instance ∅]> (heap s)) s))
      by reflexivity.
    destruct (bind_args Rectangle.params args kwargs) as [bound|] eqn:Hb;
      [|reflexivity].
    destruct (bind_args_supplied _ _ _ Hb) as [Hsup _]. congruence. }
  eexists. split; [exact Hcall|]. split; [|split; [|split]].
  - intros B k. now apply bind_Raise.
  - intros r s''. rewrite Hcall. discriminate.
  - intros l o Hl. simpl. rewrite lookup_insert_ne; [exact Hl|].
    intros E. pose proof (alloc_unused s) as H. rewrite E in H. congruence.
  - reflexivity.
Qed.

Lemma omitted_argument_fails_witness :
  omitted [] [("length", VInt 10)] = true
  /\ exists s',
       Rectangle.call [] [("length", VInt 10)] initial_state = Raise TypeError s'
       /\ (forall B (k : loc -> M B),
             (r <- Rectangle.call [] [("length", VInt 10)] ;; k r) initial_state
             = Raise TypeError s')
       /\ (forall r s'', Rectangle.call [] [("length", VInt 10)] initial_state <> Ok r s'')
       /\ (forall l o, heap initial_state !! l = Some o -> heap s' !! l = Some o)
       /\ stdout s' = stdout initial_state.
Proof.
  split; [reflexivity|].
  apply (omitted_argument_fails [] [("length", VInt 10)] initial_state).
  reflexivity.
Defined.

(** ** Iteration as a function of the two attributes *)

Lemma next_getattr_Ok g r pc s name v pc' :
  heap s !! g = Some (Generator r pc) ->
  Rectangle.resume r pc s = Ok (VDict [(name, v)], pc') s ->
  next g s = Ok (VDict [(name, v)]) (moved g r pc' s).
Proof. intros Hg Hres. unfold next. now rewrite Hg, Hres. Qed.

Lemma next_missing g r pc s :
  heap s !! g = Some (Generator r pc) ->
  Rectangle.resume r pc s = Raise AttributeError s ->
  next g s = Raise AttributeError (moved g r Closed s).
Proof. intros Hg Hres. unfold next. now rewrite Hg, Hres. Qed.

Lemma resume_Created r s attrs :
  heap s !! r = Some (Instance attrs) ->
  Rectangle.resume r Created s
  = match attrs !! "length" with
    | Some v => Ok (VDict [("length", v)], AtYield1) s
    | None => Raise AttributeError s
    end.
Proof.
  intros Hr. unfold Rectangle.resume, bind, getattr. rewrite Hr.
  now destruct (attrs !! "length").
Qed.

Lemma resume_AtYield1 r s attrs :
  heap s !! r = Some (Instance attrs) ->
  Rectangle.resume r AtYield1 s
  = match attrs !! "width" with
    | Some v => Ok (VDict [("width", v)], AtYield2) s
    | None => Raise AttributeError s
    end.
Proof.
  intros Hr. unfold Rectangle.resume, bind, getattr. rewrite Hr.
  now destruct (attrs !! "width").
Qed.

(** [list(r)] on an instance, whether or not it has the two attributes. *)
Lemma py_list_items fuel r s attrs :
  (3 <= fuel)%nat -> heap s !! r = Some (Instance attrs) ->
  result (py_list fuel r s) = Some (items (attrs !! "length") (attrs !! "width")).
Proof.
  intros Hfuel Hr.
  destruct (attrs !! "length") as [vl|] eqn:Hl;
    [destruct (attrs !! "width") as [vw|] eqn:Hw|].
  - rewrite (py_list_rectangle fuel r s vl vw); [reflexivity | exact Hfuel |].
    exists attrs. auto.
  - destruct fuel as [|[|fuel]]; try lia.
    assert (Hg : fresh (dom (heap s)) <> r).
    { intros E. pose proof (alloc_unused s) as H. rewrite E in H. congruence. }
    unfold py_list. rewrite (bind_Ok _ _ _ _ _ (iter_Instance _ _ _ Hr)).
    set (g := fresh (dom (heap s))) in *. cbn [collect].
    rewrite (next_getattr_Ok g r Created _ "length" vl AtYield1);
      [| apply lookup_moved
       | rewrite (resume_Created r _ attrs), Hl;
         [reflexivity | now rewrite lookup_moved_ne]].
    unfold bind at 1. cbn [collect].
    rewrite (next_missing g r AtYield1);
      [reflexivity | apply lookup_moved |].
    rewrite (resume_AtYield1 r _ attrs), Hw;
      [reflexivity | now rewrite !lookup_moved_ne].
  - destruct fuel as [|fuel]; try lia.
    assert (Hg : fresh (dom (heap s)) <> r).
    { intros E. pose proof (alloc_unused s) as H. rewrite E in H. congruence. }
    unfold py_list. rewrite (bind_Ok _ _ _ _ _ (iter_Instance _ _ _ Hr)).
    set (g := fresh (dom (heap s))) in *. cbn [collect].
    rewrite (next_missing g r Created);
      [reflexivity | apply lookup_moved |].
    rewrite (resume_Created r _ attrs), Hl;
      [reflexivity | now rewrite lookup_moved_ne].
Qed.

(** C9: what iterating gives is a function of the two attributes alone: two
    instances, in any two states, whose [length] attributes are equal and
    whose [width] attributes are equal give equal results, element by
    element. *)
Theorem iteration_deterministic (fuel1 fuel2 : nat) (r1 r2 : loc) (s1 s2 : state)
    (attrs1 attrs2 : gmap string value) :
  (3 <= fuel1)%nat -> (3 <= fuel2)%nat ->
  heap s1 !! r1 = Some (Instance attrs1) ->
  heap s2 !! r2 = Some (Instance attrs2) ->
  attrs1 !! "length" = attrs2 !! "length" ->
  attrs1 !! "width" = attrs2 !! "width" ->
  result (py_list fuel1 r1 s1) = result (py_list fuel2 r2 s2)
  /\ result (py_list fuel1 r1 s1)
     = Some (items (attrs1 !! "length") (attrs1 !! "width")).
Proof.
  intros Hf1 Hf2 H1 H2 Hl Hw.
  rewrite (py_list_items fuel1 r1 s1 attrs1 Hf1 H1).
  rewrite (py_list_items fuel2 r2 s2 attrs2 Hf2 H2).
  now rewrite Hl, Hw.
Qed.

Lemma iteration_deterministic_witness :
  (3 <= 3)%nat /\ (3 <= 5)%nat
  /\ result (py_list 3 1%positive (constructed (VInt 3) (VInt 4) initial_state))
     = result (py_list 5 2%positive
                 (constructed (VInt 3) (VInt 4)
                    (constructed (VInt 9) (VInt 8) initial_state))).
Proof.
  split; [lia|]. split; [lia|].
  apply (iteration_deterministic 3 5 1%positive 2%positive
           (constructed (VInt 3) (VInt 4) initial_state)
           (constructed (VInt 3) (VInt 4) (constructed (VInt 9) (VInt 8) initial_state))
           (<["width" := VInt 4]> (<["length" := VInt 3]> ∅))
           (<["width" := VInt 4]> (<["length" := VInt 3]> ∅)));
    try lia; vm_compute; reflexivity.
Defined.

(** C10: each attribute is read when its element is asked for.  When [width]
    is assigned after the first element was taken and before the second one
    is asked for, the second element holds the new value, not the one the
    Rectangle had when the iteration began. *)
Theorem width_read_on_request (r : loc) (s : state) (vl vw v : value) :
  rectangle_at s r vl vw ->
  exists s',
    reassigned_width r v s
    = Ok [VDict [("length", vl)]; VDict [("width", v)]] s'.
Proof.
  intros Hr. pose proof Hr as (attrs & Hattrs & Hl & Hw).
  pose proof (fresh_not_rectangle _ _ _ _ Hr) as Hg.
  unfold reassigned_width.
  rewrite (bind_Ok _ _ _ _ _ (iter_Instance _ _ _ Hattrs)).
  set (g := fresh (dom (heap s))) in *.
  erewrite bind_Ok
    by (apply (next_Created g r _ vl vw); [generator_lookup | rectangle_moved]).
  erewrite bind_Ok
    by (apply (setattr_Instance r "width" v _ attrs); now rewrite !lookup_moved_ne).
  erewrite bind_Ok; [now eexists|].
  apply (next_AtYield1 g r _ vl v).
  - simpl. rewrite lookup_insert_ne by congruence. now rewrite lookup_insert_eq.
  - exists (<["width" := v]> attrs). simpl. rewrite lookup_insert_eq.
    split; [reflexivity|]. split; [now rewrite lookup_insert_ne | apply lookup_insert_eq].
Qed.

Lemma width_read_on_request_witness :
  rectangle_at (constructed (VInt 10) (VInt 5) initial_state) 1%positive (VInt 10) (VInt 5)
  /\ exists s',
       reassigned_width 1%positive (VInt 8) (constructed (VInt 10) (VInt 5) initial_state)
       = Ok [VDict [("length", VInt 10)]; VDict [("width", VInt 8)]] s'.
Proof.
  assert (H : rectangle_at (constructed (VInt 10) (VInt 5) initial_state) 1%positive
                (VInt 10) (VInt 5)).
  { eexists. repeat split; vm_compute; reflexivity. }
  split; [exact H|].
  apply (width_read_on_request 1%positive _ (VInt 10) (VInt 5) (VInt 8) H).
Defined.

(** * Further properties of the code *)

(** ** The calls the constructor accepts *)

Lemma key_cases (k : string) :
  k = "length" \/ k = "width"
  \/ (k <> "length" /\ k <> "width" /\ bool_decide (k ∈ Rectangle.params) = false).
Proof.
  destruct (decide (k = "length")) as [->|Hl]; [now left|].
  destruct (decide (k = "width")) as [->|Hw]; [now right; left|].
  right; right. split; [exact Hl|]. split; [exact Hw|].
  apply bool_decide_eq_false_2. unfold Rectangle.params.
  rewrite !elem_of_cons. intros [?|[?|H]]; try congruence.
  now apply elem_of_nil in H.
Qed.

Lemma bind_keywords_unknown params k v rest bound :
  bool_decide (k ∈ params) = false ->
  bind_keywords params ((k, v) :: rest) bound = None.
Proof. intros H. cbn [bind_keywords]. now rewrite H. Qed.

Lemma bind_keywords_filled params k v rest bound :
  is_Some (bound !! k) ->
  bind_keywords params ((k, v) :: rest) bound = None.
Proof.
  intros [x Hx]. cbn [bind_keywords].
  rewrite (bool_decide_eq_false_2 (bound !! k = None)) by congruence.
  now rewrite andb_false_r.
Qed.

Lemma bind_keywords_fill params k v rest bound :
  bool_decide (k ∈ params) = true -> bound !! k = None ->
  bind_keywords params ((k, v) :: rest) bound
  = bind_keywords params rest (<[k := v]> bound).
Proof.
  intros Hk Hb. cbn [bind_keywords].
  now rewrite Hk, (bool_decide_eq_true_2 _ Hb).
Qed.

Ltac classify_key k :=
  let Hl := fresh "Hl" in
  let Hw := fresh "Hw" in
  let Hk := fresh "Hk" in
  destruct (key_cases k) as [->|[->|(Hl & Hw & Hk)]];
  [ | | apply String.eqb_neq in Hl; apply String.eqb_neq in Hw ].

Ltac run_keywords :=
  repeat first
    [ rewrite bind_keywords_unknown by assumption
    | rewrite bind_keywords_filled by (eexists; vm_compute; reflexivity)
    | rewrite bind_keywords_fill by (vm_compute; reflexivity) ].

Ltac settle_binding :=
  unfold accepted_call; cbv beta iota;
  repeat match goal with
         | H : String.eqb _ _ = false |- _ => rewrite !H
         end;
  run_keywords; vm_compute; reflexivity.

(** Binding succeeds on the accepted calls and on no other. *)
Lemma bind_args_accepted args kwargs :
  bind_args Rectangle.params args kwargs
  = match accepted_call args kwargs with
    | Some (vl, vw) => Some (<["width" := vw]> (<["length" := vl]> ∅))
    | None => None
    end.
Proof.
  unfold bind_args.
  destruct args as [|a1 [|a2 [|a3 args]]].
  - rewrite bool_decide_eq_true_2 by (simpl; lia).
    destruct kwargs as [|[k1 v1] [|[k2 v2] [|[k3 v3] kwargs]]].
    + settle_binding.
    + classify_key k1; settle_binding.
    + classify_key k1; classify_key k2; settle_binding.
    + classify_key k1; classify_key k2; classify_key k3; settle_binding.
  - rewrite bool_decide_eq_true_2 by (simpl; lia).
    destruct kwargs as [|[k1 v1] [|[k2 v2] kwargs]].
    + settle_binding.
    + classify_key k1; settle_binding.
    + classify_key k1; classify_key k2; settle_binding.
  - rewrite bool_decide_eq_true_2 by (simpl; lia).
    destruct kwargs as [|[k1 v1] kwargs].
    + settle_binding.
    + classify_key k1; settle_binding.
  - rewrite bool_decide_eq_false_2 by (simpl; lia).
    destruct kwargs; reflexivity.
Qed.

(** X1: the constructor accepts exactly the calls that give each of [length]
    and [width] once.  On these it returns a new Rectangle holding the two
    values; on every other call (a value left out, a third positional
    argument, a keyword that is neither name, a value given twice) it ends
    with [TypeError], and with nothing else. *)
Theorem call_accepted (args : list value) (kwargs : list (string * value))
    (s : state) :
  Rectangle.call args kwargs s
  = match accepted_call args kwargs with
    | Some (vl, vw) => Ok (fresh (dom (heap s))) (constructed vl vw s)
    | None => Raise TypeError (unformed s)
    end.
Proof.
  pose proof (bind_args_accepted args kwargs) as Hb.
  destruct (accepted_call args kwargs) as [[vl vw]|].
  - apply (call_bound _ _ _ vl vw s Hb).
    + now rewrite lookup_insert_ne, lookup_insert_eq.
    + apply lookup_insert_eq.
  - unfold Rectangle.call.
    rewrite (bind_Ok _ _ s (fresh (dom (heap s))) (unformed s)) by reflexivity.
    now rewrite Hb.
Qed.

(** ** [__init__] on an instance that has attributes *)




(** X3: the last [__init__] wins: running [__init__] twice on an instance
    leaves the state that the second call alone leaves. *)
Theorem init_twice (self : loc) (vl vw vl' vw' : value) (s : state)
    (attrs : gmap string value) :
  heap s !! self = Some (Instance attrs) ->
  (Rectangle.__init__ self vl vw ;; Rectangle.__init__ self vl' vw') s
  = Rectangle.__init__ self vl' vw' s.
Proof.
  intros Hs.
  rewrite (bind_Ok _ _ _ _ _ (init_Instance _ vl vw _ _ Hs)).
  erewrite init_Instance by (simpl; apply lookup_insert_eq).
  rewrite (init_Instance _ vl' vw' _ _ Hs). simpl. unfold set_heap. simpl.
  rewrite insert_insert_eq.
  assert (E : <["width" := vw']> (<["length" := vl']>
                (<["width" := vw]> (<["length" := vl]> attrs)))
              = <["width" := vw']> (<["length" := vl']> attrs)).
  { apply map_eq. intros name.
    destruct (decide (name = "width")) as [->|Hw];
      [now rewrite !lookup_insert_eq|].
    rewrite !(lookup_insert_ne _ "width") by congruence.
    destruct (decide (name = "length")) as [->|Hl];
      [now rewrite !lookup_insert_eq|].
    now rewrite !lookup_insert_ne by congruence. }
  now rewrite E.
Qed.

Lemma init_twice_witness :
  heap (constructed (VInt 10) (VInt 5) initial_state) !! 1%positive
  = Some (Instance (<["width" := VInt 5]> (<["length" := VInt 10]> ∅)))
  /\ (Rectangle.__init__ 1%positive (VInt 1) (VInt 2) ;;
      Rectangle.__init__ 1%positive (VInt 3) (VInt 4))
       (constructed (VInt 10) (VInt 5) initial_state)
     = Rectangle.__init__ 1%positive (VInt 3) (VInt 4)
         (constructed (VInt 10) (VInt 5) initial_state).
Proof.
  split; [vm_compute; reflexivity|].
  apply (init_twice 1%positive (VInt 1) (VInt 2) (VInt 3) (VInt 4) _
           (<["width" := VInt 5]> (<["length" := VInt 10]> ∅))).
  vm_compute; reflexivity.
Defined.

(** ** A generator gives at most two elements *)

Lemma next_rank g self pc s s1 :
  heap s !! g = Some (Generator self pc) ->
  final_state (next g s) = Some s1 ->
  exists pc', heap s1 !! g = Some (Generator self pc')
              /\ (Nat.min 2 (S (pc_rank pc)) <= pc_rank pc')%nat.
Proof.
  intros Hg. unfold next. rewrite Hg.
  destruct pc; unfold Rectangle.resume, bind, ret, raise;
    try (simpl; intros [= <-]; eexists; split;
         [apply lookup_insert_eq | simpl; lia]);
    match goal with
    | |- context [getattr ?o ?n s] =>
        destruct (getattr o n s); simpl; try discriminate;
        intros [= <-];
        (eexists; split; [apply lookup_insert_eq | simpl; lia])
    end.
Qed.

Lemma advance_rank n g self pc s :
  heap s !! g = Some (Generator self pc) ->
  exists pc', heap (advance n g s) !! g = Some (Generator self pc')
              /\ (Nat.min 2 (n + pc_rank pc) <= pc_rank pc')%nat.
Proof.
  revert pc s. induction n as [|n IH]; intros pc s Hg.
  - exists pc. split; [exact Hg | lia].
  - cbn [advance]. destruct (next_ends g s) as [s1 Hs1]. rewrite Hs1.
    destruct (next_rank _ _ _ _ _ Hg Hs1) as (pc1 & Hg1 & Hrank1).
    destruct (IH pc1 s1 Hg1) as (pc' & Hg' & Hrank').
    exists pc'. split; [exact Hg'|]. lia.
Qed.

Lemma next_after_two g self pc s :
  heap s !! g = Some (Generator self pc) -> (2 <= pc_rank pc)%nat ->
  next g s = Raise StopIteration (moved g self Closed s).
Proof.
  intros Hg Hrank. destruct pc; simpl in Hrank; try lia.
  - now apply next_AtYield2.
  - now apply next_Closed.
Qed.

(** X4: a generator of [__iter__] never gives a third element: after any two
    requests or more on it, whatever way each ended, every request ends with
    [StopIteration]. *)
Theorem at_most_two_elements (n : nat) (g self : loc) (pc : gen_pc) (s : state) :
  heap s !! g = Some (Generator self pc) -> (2 <= n)%nat ->
  next g (advance n g s)
  = Raise StopIteration (moved g self Closed (advance n g s)).
Proof.
  intros Hg Hn.
  destruct (advance_rank n _ _ _ _ Hg) as (pc' & Hg' & Hrank).
  apply (next_after_two g self pc'); [exact Hg' | lia].
Qed.

Lemma at_most_two_elements_witness :
  heap (moved 2%positive 1%positive Created (constructed (VInt 10) (VInt 5) initial_state))
    !! 2%positive = Some (Generator 1%positive Created)
  /\ (2 <= 2)%nat
  /\ result (next 2%positive
       (advance 2 2%positive
          (moved 2%positive 1%positive Created
             (constructed (VInt 10) (VInt 5) initial_state))))
     = Some (inr StopIteration).
Proof.
  split; [vm_compute; reflexivity|]. split; [lia|].
  rewrite (at_most_two_elements 2 2%positive 1%positive Created);
    [reflexivity | vm_compute; reflexivity | lia].
Defined.

(** ** The loop of the demonstration on any Rectangle *)

Lemma append_assoc (a b c : string) : (a +:+ b) +:+ c = a +:+ b +:+ c.
Proof.
  induction a as [|x a IH]; [reflexivity|].
  change (String x ((a +:+ b) +:+ c) = String x (a +:+ b +:+ c)).
  now f_equal.
Qed.



(** The state after [print]. *)
Lemma print_Ok v s :
  print v s = Ok tt {| heap := heap s; stdout := stdout s +:+ str v +:+ newline |}.
Proof. reflexivity. Qed.

(** The loop of the demonstration, on a Rectangle in any state: the state it
    leaves. *)
Lemma print_loop_state (fuel : nat) (r : loc) (s : state) (vl vw : value) :
  (3 <= fuel)%nat -> rectangle_at s r vl vw ->
  for_each fuel r print s
  = Ok tt {| heap := <[fresh (dom (heap s)) := Generator r Closed]> (heap s);
             stdout := (stdout s +:+ str (VDict [("length", vl)]) +:+ newline)
                       +:+ str (VDict [("width", vw)]) +:+ newline |}.
Proof.
  intros Hfuel Hr. pose proof Hr as (attrs & Hattrs & _).
  pose proof (fresh_not_rectangle _ _ _ _ Hr) as Hg.
  destruct fuel as [|[|[|fuel]]]; try lia.
  unfold for_each. rewrite (bind_Ok _ _ _ _ _ (iter_Instance _ _ _ Hattrs)).
  set (g := fresh (dom (heap s))) in *.
  cbn [for_in].
  rewrite (next_Created g r _ vl vw) by (generator_lookup || rectangle_moved).
  unfold bind at 1. rewrite print_Ok. cbn [for_in].
  rewrite (next_AtYield1 g r _ vl vw);
    [| simpl; apply lookup_insert_eq
     | destruct Hr as (a & Ha & Hl & Hw); exists a; simpl;
       rewrite !lookup_insert_ne by congruence; auto].
  unfold bind at 1. rewrite print_Ok. cbn [for_in].
  rewrite (next_AtYield2 g r) by (simpl; apply lookup_insert_eq).
  unfold moved, set_heap. cbn [heap stdout].
  now rewrite !insert_insert_eq.
Qed.





(** ** A generator is its own iterator *)

Lemma iter_Generator g self pc s :
  heap s !! g = Some (Generator self pc) -> iter g s = Ok g s.
Proof. intros Hg. unfold iter. now rewrite Hg. Qed.

Lemma collect_ended fuel g r pc s :
  (1 <= fuel)%nat -> heap s !! g = Some (Generator r pc) -> (2 <= pc_rank pc)%nat ->
  collect fuel g s = Ok [] (moved g r Closed s).
Proof.
  intros Hfuel Hg Hrank. destruct fuel as [|fuel]; try lia.
  cbn [collect]. now rewrite (next_after_two g r pc s Hg Hrank).
Qed.

Lemma collect_AtYield1 fuel g r s vl vw :
  (2 <= fuel)%nat ->
  heap s !! g = Some (Generator r AtYield1) -> rectangle_at s r vl vw ->
  collect fuel g s = Ok [VDict [("width", vw)]] (moved g r Closed s).
Proof.
  intros Hfuel Hg Hr. destruct fuel as [|fuel]; try lia.
  pose proof (rectangle_not_generator _ _ _ _ _ _ _ Hr Hg) as Hne.
  cbn [collect]. rewrite (next_AtYield1 _ _ _ _ _ Hg Hr).
  unfold bind at 1.
  rewrite (collect_ended fuel g r AtYield2);
    [| lia | apply lookup_moved | simpl; lia].
  unfold bind, ret. now rewrite moved_moved.
Qed.

(** X7: the generator [iter(rect)] returns can be gone through once only:
    listed a second time it gives nothing; and after one element was taken
    from it, listing it gives the width alone. *)
Theorem generator_one_shot (fuel : nat) (r : loc) (s : state) (vl vw : value) :
  (3 <= fuel)%nat -> rectangle_at s r vl vw ->
  (exists s',
     list_twice fuel r s
     = Ok ([VDict [("length", vl)]; VDict [("width", vw)]], []) s')
  /\ (exists s',
        rest_after_first fuel r s
        = Ok (VDict [("length", vl)], [VDict [("width", vw)]]) s').
Proof.
  intros Hfuel Hr. pose proof Hr as (attrs & Hattrs & _).
  pose proof (fresh_not_rectangle _ _ _ _ Hr) as Hg.
  split.
  - unfold list_twice. rewrite (bind_Ok _ _ _ _ _ (iter_Instance _ _ _ Hattrs)).
    set (g := fresh (dom (heap s))) in *.
    assert (H1 : py_list fuel g (moved g r Created s)
                 = Ok [VDict [("length", vl)]; VDict [("width", vw)]]
                      (moved g r Closed s)).
    { unfold py_list.
      rewrite (bind_Ok _ _ _ _ _ (iter_Generator g r Created _ (lookup_moved _ _ _ _))).
      rewrite (collect_Created fuel g r _ vl vw);
        [now rewrite moved_moved | exact Hfuel | apply lookup_moved | rectangle_moved]. }
    assert (H2 : py_list fuel g (moved g r Closed s) = Ok [] (moved g r Closed s)).
    { unfold py_list.
      rewrite (bind_Ok _ _ _ _ _ (iter_Generator g r Closed _ (lookup_moved _ _ _ _))).
      rewrite (collect_ended fuel g r Closed);
        [now rewrite moved_moved | lia | apply lookup_moved | simpl; lia]. }
    rewrite (bind_Ok _ _ _ _ _ H1), (bind_Ok _ _ _ _ _ H2). now eexists.
  - unfold rest_after_first.
    rewrite (bind_Ok _ _ _ _ _ (iter_Instance _ _ _ Hattrs)).
    set (g := fresh (dom (heap s))) in *.
    erewrite bind_Ok
      by (apply (next_Created g r _ vl vw); [generator_lookup | rectangle_moved]).
    assert (H1 : py_list fuel g (moved g r AtYield1 (moved g r Created s))
                 = Ok [VDict [("width", vw)]] (moved g r Closed s)).
    { unfold py_list.
      rewrite (bind_Ok _ _ _ _ _ (iter_Generator g r AtYield1 _ (lookup_moved _ _ _ _))).
      rewrite (collect_AtYield1 fuel g r _ vl vw);
        [now rewrite !moved_moved | lia | apply lookup_moved | rectangle_moved]. }
    rewrite (bind_Ok _ _ _ _ _ H1). now eexists.
Qed.

Lemma generator_one_shot_witness :
  (3 <= 3)%nat
  /\ rectangle_at (constructed (VInt 10) (VInt 5) initial_state) 1%positive (VInt 10) (VInt 5)
  /\ exists s',
       list_twice 3 1%positive (constructed (VInt 10) (VInt 5) initial_state)
       = Ok ([VDict [("length", VInt 10)]; VDict [("width", VInt 5)]], []) s'.
Proof.
  assert (H : rectangle_at (constructed (VInt 10) (VInt 5) initial_state) 1%positive
                (VInt 10) (VInt 5)).
  { eexists. repeat split; vm_compute; reflexivity. }
  split; [lia|]. split; [exact H|].
  apply (generator_one_shot 3 1%positive _ (VInt 10) (VInt 5)); [lia | exact H].
Defined.

(** ** Two Rectangles *)

(** X8: two Rectangles do not share their attributes: after the width of the
    first is assigned, the first gives the new width and the second gives its
    own two values. *)
Theorem rectangles_independent (fuel : nat) (l1 w1 l2 w2 v : value) (s : state) :
  (3 <= fuel)%nat ->
  exists s',
    two_rectangles fuel l1 w1 l2 w2 v s
    = Ok ([VDict [("length", l1)]; VDict [("width", v)]],
          [VDict [("length", l2)]; VDict [("width", w2)]]) s'.
Proof.
  intros Hfuel. unfold two_rectangles.
  rewrite (bind_Ok _ _ _ _ _ (call_keywords l1 w1 s)).
  set (r1 := fresh (dom (heap s))).
  set (s1 := constructed l1 w1 s).
  rewrite (bind_Ok _ _ _ _ _ (call_keywords l2 w2 s1)).
  set (r2 := fresh (dom (heap s1))).
  set (s2 := constructed l2 w2 s1).
  pose proof (rectangle_at_constructed l1 w1 s) as Hr1. fold r1 s1 in Hr1.
  pose proof (rectangle_at_constructed l2 w2 s1) as Hr2. fold r2 s2 in Hr2.
  pose proof (fresh_not_rectangle _ _ _ _ Hr1) as Hne. fold r2 in Hne.
  destruct Hr1 as (a1 & Ha1 & Hl1 & Hw1).
  assert (Ha1' : heap s2 !! r1 = Some (Instance a1)).
  { subst s2. unfold constructed. simpl. fold r2.
    now rewrite lookup_insert_ne. }
  rewrite (bind_Ok _ _ _ _ _ (setattr_Instance r1 "width" v _ _ Ha1')).
  set (s3 := set_heap _ s2).
  assert (Hr1' : rectangle_at s3 r1 l1 v).
  { exists (<["width" := v]> a1). subst s3. simpl. rewrite lookup_insert_eq.
    split; [reflexivity|].
    split; [now rewrite lookup_insert_ne | apply lookup_insert_eq]. }
  assert (Hr2' : rectangle_at s3 r2 l2 w2).
  { destruct Hr2 as (a2 & Ha2 & Hl2 & Hw2). exists a2. subst s3. simpl.
    rewrite lookup_insert_ne by congruence. auto. }
  rewrite (bind_Ok _ _ _ _ _ (py_list_rectangle fuel r1 s3 l1 v Hfuel Hr1')).
  pose proof (fresh_not_rectangle _ _ _ _ Hr2') as Hg.
  erewrite bind_Ok
    by (apply (py_list_rectangle fuel r2 _ l2 w2); [exact Hfuel | rectangle_moved]).
  now eexists.
Qed.

Lemma rectangles_independent_witness :
  (3 <= 3)%nat
  /\ exists s',
       two_rectangles 3 (VInt 10) (VInt 5) (VInt 7) (VInt 2) (VInt 8) initial_state
       = Ok ([VDict [("length", VInt 10)]; VDict [("width", VInt 8)]],
             [VDict [("length", VInt 7)]; VDict [("width", VInt 2)]]) s'.
Proof.
  split; [lia|].
  apply (rectangles_independent 3 (VInt 10) (VInt 5) (VInt 7) (VInt 2) (VInt 8)
           initial_state).
  lia.
Defined.

(** ** The module under any name, from any state *)

(** X9: from any state and under any name the statements of the module end
    normally; the two lines of the demonstration are added to the output when
    the name is [__main__], and under any other name (the module imported)
    nothing is printed and no object is made. *)
Theorem module_body_effect (fuel : nat) (name : string) (s : state) :
  (3 <= fuel)%nat ->
  exists s',
    module_body fuel name s = Ok tt s'
    /\ if String.eqb name "__main__"
       then stdout s' = stdout s +:+ "{'length': 10}" +:+ newline
                                 +:+ "{'width': 5}" +:+ newline
       else s' = s.
Proof.
  intros Hfuel. unfold module_body.
  destruct (String.eqb name "__main__"); [|now eexists].
  rewrite (bind_Ok _ _ _ _ _ (call_keywords (VInt 10) (VInt 5) s)).
  pose proof (print_loop_state fuel (fresh (dom (heap s)))
                (constructed (VInt 10) (VInt 5) s) (VInt 10) (VInt 5) Hfuel
                (rectangle_at_constructed _ _ s)) as Hrun.
  eexists. split; [exact Hrun|]. cbn [stdout constructed set_heap].
  rewrite !append_assoc. reflexivity.
Qed.

Lemma module_body_effect_witness :
  (3 <= 3)%nat
  /\ exists s',
       module_body 3 "CustomClassesInPython" initial_state = Ok tt s'
       /\ s' = initial_state.
Proof.
  split; [lia|].
  destruct (module_body_effect 3 "CustomClassesInPython" initial_state)
    as (s' & Hrun & Hs'); [lia|].
  exists s'. split; [exact Hrun | exact Hs'].
Defined.

(** ** Nothing is read when the generator is made *)

(** X10: making the generator reads no attribute: a length assigned after
    [iter(rect)] and before the first element is asked for is the length the
    first element holds. *)
Theorem length_read_on_request (fuel : nat) (r : loc) (s : state) (vl vw v : value) :
  (3 <= fuel)%nat -> rectangle_at s r vl vw ->
  exists s',
    reassigned_length fuel r v s
    = Ok [VDict [("length", v)]; VDict [("width", vw)]] s'.
Proof.
  intros Hfuel Hr. pose proof Hr as (attrs & Hattrs & Hl & Hw).
  pose proof (fresh_not_rectangle _ _ _ _ Hr) as Hg.
  unfold reassigned_length.
  rewrite (bind_Ok _ _ _ _ _ (iter_Instance _ _ _ Hattrs)).
  set (g := fresh (dom (heap s))) in *.
  erewrite bind_Ok
    by (apply (setattr_Instance r "length" v _ attrs); now rewrite lookup_moved_ne).
  set (s2 := set_heap _ _).
  assert (Hg2 : heap s2 !! g = Some (Generator r Created)).
  { subst s2. simpl. rewrite lookup_insert_ne by congruence. apply lookup_insert_eq. }
  assert (Hr2 : rectangle_at s2 r v vw).
  { exists (<["length" := v]> attrs). subst s2. simpl. rewrite lookup_insert_eq.
    split; [reflexivity|].
    split; [apply lookup_insert_eq | now rewrite lookup_insert_ne]. }
  unfold py_list. rewrite (bind_Ok _ _ _ _ _ (iter_Generator g r Created _ Hg2)).
  rewrite (collect_Created fuel g r s2 v vw Hfuel Hg2 Hr2). now eexists.
Qed.

Lemma length_read_on_request_witness :
  (3 <= 3)%nat
  /\ rectangle_at (constructed (VInt 10) (VInt 5) initial_state) 1%positive (VInt 10) (VInt 5)
  /\ exists s',
       reassigned_length 3 1%positive (VInt 8) (constructed (VInt 10) (VInt 5) initial_state)
       = Ok [VDict [("length", VInt 8)]; VDict [("width", VInt 5)]] s'.
Proof.
  assert (H : rectangle_at (constructed (VInt 10) (VInt 5) initial_state) 1%positive
                (VInt 10) (VInt 5)).
  { eexists. repeat split; vm_compute; reflexivity. }
  split; [lia|]. split; [exact H|].
  apply (length_read_on_request 3 1%positive _ (VInt 10) (VInt 5) (VInt 8)); [lia | exact H].
Defined.

(** ** The constructor and the objects already there *)

(** X11: an accepted call makes its Rectangle at a reference that was not in
    use, and leaves every object that was there, and the output, as they
    were. *)
Theorem call_frame (args : list value) (kwargs : list (string * value))
    (vl vw : value) (s : state) :
  accepted_call args kwargs = Some (vl, vw) ->
  exists r s',
    Rectangle.call args kwargs s = Ok r s'
    /\ heap s !! r = None
    /\ rectangle_at s' r vl vw
    /\ (forall l o, heap s !! l = Some o -> heap s' !! l = Some o)
    /\ stdout s' = stdout s.
Proof.
  intros Hacc. pose proof (bind_args_accepted args kwargs) as Hb.
  rewrite Hacc in Hb. do 2 eexists.
  split; [apply (call_bound _ _ _ vl vw s Hb);
          [now rewrite lookup_insert_ne, lookup_insert_eq | apply lookup_insert_eq]|].
  split; [apply alloc_unused|].
  split; [apply rectangle_at_constructed|]. split; [|reflexivity].
  intros l o Hl. simpl. rewrite lookup_insert_ne; [exact Hl|].
  intros E. pose proof (alloc_unused s) as H. rewrite E in H. congruence.
Qed.

Lemma call_frame_witness :
  accepted_call [VInt 7] [("width", VInt 2)] = Some (VInt 7, VInt 2)
  /\ exists r s',
       Rectangle.call [VInt 7] [("width", VInt 2)]
         (constructed (VInt 10) (VInt 5) initial_state) = Ok r s'
       /\ heap (constructed (VInt 10) (VInt 5) initial_state) !! r = None
       /\ rectangle_at s' r (VInt 7) (VInt 2).
Proof.
  split; [reflexivity|].
  destruct (call_frame [VInt 7] [("width", VInt 2)] (VInt 7) (VInt 2)
              (constructed (VInt 10) (VInt 5) initial_state))
    as (r & s' & Hcall & Hnew & Hrect & _); [reflexivity|].
  exists r, s'. now repeat split.
Defined.
